(** * AcademiaVeritas: the blockchain service

    A shallow embedding of [backend/services/blockchain_service.py] and the
    properties of its two public operations, [store_certificate_hash] and
    [verify_certificate_hash].

    Layout:
    - [Py]: the fragment of the Python runtime the module relies on
      (strings as code points, exceptions, [str.encode], [str(int)],
      [os.getenv], dictionaries);
    - [SHA256]: [hashlib.sha256], as FIPS 180-4 defines it;
    - [BlockchainService]: the class, its module-level instance and the two
      convenience functions;
    - the properties of the public operations, then further properties of
      the module (the answers' shape, what decides them, what is digested). *)

From Stdlib Require Import ZArith List Ascii String DecimalString Lia.
From Stdlib Require DecimalPos DecimalZ.
From stdpp Require Import gmap strings list fin_maps.
Import ListNotations.

(* ===================================================================== *)
(** * The Python runtime fragment                                         *)
(* ===================================================================== *)

Module Py.
Local Open Scope Z_scope.

(** A Python [str] is a sequence of Unicode code points; a lone surrogate
    (U+D800..U+DFFF) is a legal element of a [str]. *)
Definition str := list Z.

(** [bytes]: a sequence of octets. *)
Definition bytes := list Z.

(** An ASCII literal of the source, as a [str]. *)
Definition lit (s : string) : str :=
  map (fun a => Z.of_N (N_of_ascii a)) (list_ascii_of_string s).

(** The exceptions the module can meet. [UnicodeEncodeError] carries the
    offending object and the half-open range [start, stop) of the code
    points that cannot be encoded; [ValueError] carries its message. *)
Inductive exn :=
| UnicodeEncodeError (object : str) (start stop : nat)
| ValueError (msg : str).

(** A computation either returns or raises. *)
Inductive result (A : Type) :=
| Ok (a : A)
| Raise (e : exn).
Arguments Ok {A} a.
Arguments Raise {A} e.

Definition bind {A B} (m : result A) (k : A -> result B) : result B :=
  match m with
  | Ok a => k a
  | Raise e => Raise e
  end.

Declare Scope py_scope.
Delimit Scope py_scope with py.
Notation "'let*' x ':=' m 'in' k" := (bind m (fun x => k))
  (at level 10, x name, m at level 100, k at level 200) : py_scope.
Local Open Scope py_scope.

(** [try: body  except Exception as e: handler(e)]. *)
Definition try_except {A} (body : result A) (handler : exn -> A) : A :=
  match body with
  | Ok a => a
  | Raise e => handler e
  end.

(** ** Hexadecimal and decimal rendering *)

(** The lower-case hexadecimal digit of a nibble. *)
Definition hexdigit (n : Z) : Z :=
  if n <? 10 then 48 + n else 87 + n.

(** [width] lower-case hexadecimal digits of [x], most significant first. *)
Fixpoint hex_fixed (width : nat) (x : Z) : str :=
  match width with
  | O => []
  | S w => hex_fixed w (Z.shiftr x 4) ++ [hexdigit (Z.land x 15)]
  end.

(** A character of [0-9a-f]. *)
Definition is_hex (c : Z) : bool :=
  ((48 <=? c) && (c <=? 57)) || ((97 <=? c) && (c <=? 102)).

(** [str(n)] for an int, without the digit limit. *)
Definition decimal (n : Z) : str :=
  lit (NilZero.string_of_int (Z.to_int n)).

(** The number of decimal digits of [n], sign excluded. *)
Definition nb_decimal_digits (n : Z) : nat :=
  Decimal.nb_digits (N.to_uint (Z.abs_N n)).

(** ** The process: environment variables and interpreter settings *)

Record Runtime := {
  (** [os.environ] *)
  environ : gmap string str;
  (** [sys.get_int_max_str_digits()]; [0] switches the limit off (and is
      what an interpreter without the limit behaves like). *)
  int_max_str_digits : nat
}.

(** [os.getenv(key)] *)
Definition getenv (rt : Runtime) (key : string) : option str :=
  environ rt !! key.

(** [os.getenv(key, default)] *)
Definition getenv_default (rt : Runtime) (key : string) (default : str) : str :=
  match environ rt !! key with
  | Some v => v
  | None => default
  end.

(** The truth value of an optional string: [None] and [''] are false. *)
Definition truthy (o : option str) : bool :=
  match o with
  | None => false
  | Some [] => false
  | Some (_ :: _) => true
  end.

(** [str(n)] as CPython performs it: a [ValueError] when the number has
    more digits than the interpreter's limit. *)
Definition int_str_allowed (rt : Runtime) (n : Z) : bool :=
  match int_max_str_digits rt with
  | O => true
  | S _ => (nb_decimal_digits n <=? int_max_str_digits rt)%nat
  end.

Definition int_str (rt : Runtime) (n : Z) : result str :=
  if int_str_allowed rt n then Ok (decimal n)
  else Raise (ValueError
    (lit "Exceeds the limit (" ++ decimal (Z.of_nat (int_max_str_digits rt)) ++
     lit " digits) for integer string conversion; use sys.set_int_max_str_digits() to increase the limit")).

(** ** [str.encode()]: strict UTF-8 *)

Definition is_surrogate (c : Z) : bool :=
  (0xD800 <=? c) && (c <=? 0xDFFF).

(** The octets of one code point that is not a surrogate. *)
Definition utf8_char (c : Z) : bytes :=
  if c <? 0x80 then [c]
  else if c <? 0x800 then
    [Z.lor 0xC0 (Z.shiftr c 6); Z.lor 0x80 (Z.land c 0x3F)]
  else if c <? 0x10000 then
    [Z.lor 0xE0 (Z.shiftr c 12);
     Z.lor 0x80 (Z.land (Z.shiftr c 6) 0x3F);
     Z.lor 0x80 (Z.land c 0x3F)]
  else
    [Z.lor 0xF0 (Z.shiftr c 18);
     Z.lor 0x80 (Z.land (Z.shiftr c 12) 0x3F);
     Z.lor 0x80 (Z.land (Z.shiftr c 6) 0x3F);
     Z.lor 0x80 (Z.land c 0x3F)].

(** The length of the run of surrogates at the head of [s]. *)
Fixpoint surrogate_run (s : str) : nat :=
  match s with
  | c :: s' => if is_surrogate c then S (surrogate_run s') else O
  | [] => O
  end.

(** Encoding the suffix [s] of [object] that starts at index [pos]. *)
Fixpoint utf8_from (object : str) (pos : nat) (s : str) : result bytes :=
  match s with
  | [] => Ok []
  | c :: s' =>
      if is_surrogate c
      then Raise (UnicodeEncodeError object pos (pos + surrogate_run s))
      else let* bs := utf8_from object (S pos) s' in Ok (utf8_char c ++ bs)
  end.

(** [s.encode()] *)
Definition encode (s : str) : result bytes := utf8_from s O s.

(** A string [encode] accepts: no surrogate code point in it. *)
Definition encodable (s : str) : bool :=
  forallb (fun c => negb (is_surrogate c)) s.

(** ** [str(e)] *)

(** How a [UnicodeEncodeError] message quotes one code point. *)
Definition escape_char (c : Z) : str :=
  if c <=? 0xFF then lit "\x" ++ hex_fixed 2 c
  else if c <=? 0xFFFF then lit "\u" ++ hex_fixed 4 c
  else lit "\U" ++ hex_fixed 8 c.

Definition exn_str (e : exn) : str :=
  match e with
  | ValueError msg => msg
  | UnicodeEncodeError object start stop =>
      if (stop =? S start)%nat then
        lit "'utf-8' codec can't encode character '" ++
        escape_char (nth start object 0) ++ lit "' in position " ++
        decimal (Z.of_nat start) ++ lit ": surrogates not allowed"
      else
        lit "'utf-8' codec can't encode characters in position " ++
        decimal (Z.of_nat start) ++ lit "-" ++
        decimal (Z.of_nat (stop - 1)) ++ lit ": surrogates not allowed"
  end.

(** ** Values and dictionaries *)

(** The values the result dictionaries hold. *)
Inductive value :=
| VNone
| VBool (b : bool)
| VInt (n : Z)
| VStr (s : str).

End Py.

(* ===================================================================== *)
(** * [hashlib.sha256]                                                    *)
(* ===================================================================== *)

Module SHA256.
Local Open Scope Z_scope.

(** 32-bit words are integers in [0, 2^32); every sum wraps around. *)
Definition wrap32 (x : Z) : Z := x mod 2 ^ 32.
Definition add32 (x y : Z) : Z := wrap32 (x + y).
Definition not32 (x : Z) : Z := Z.lxor x (2 ^ 32 - 1).
Definition rotr (n x : Z) : Z :=
  Z.lor (Z.shiftr x n) (wrap32 (Z.shiftl x (32 - n))).

Definition Ch (x y z : Z) : Z := Z.lxor (Z.land x y) (Z.land (not32 x) z).
Definition Maj (x y z : Z) : Z :=
  Z.lxor (Z.lxor (Z.land x y) (Z.land x z)) (Z.land y z).
Definition Sigma0 (x : Z) : Z := Z.lxor (Z.lxor (rotr 2 x) (rotr 13 x)) (rotr 22 x).
Definition Sigma1 (x : Z) : Z := Z.lxor (Z.lxor (rotr 6 x) (rotr 11 x)) (rotr 25 x).
Definition sigma0 (x : Z) : Z := Z.lxor (Z.lxor (rotr 7 x) (rotr 18 x)) (Z.shiftr x 3).
Definition sigma1 (x : Z) : Z := Z.lxor (Z.lxor (rotr 17 x) (rotr 19 x)) (Z.shiftr x 10).

(** The round constants: the first 32 bits of the fractional parts of the
    cube roots of the first 64 primes. *)
Definition K : list Z := [
    1116352408; 1899447441; 3049323471; 3921009573;
    961987163; 1508970993; 2453635748; 2870763221;
    3624381080; 310598401; 607225278; 1426881987;
    1925078388; 2162078206; 2614888103; 3248222580;
    3835390401; 4022224774; 264347078; 604807628;
    770255983; 1249150122; 1555081692; 1996064986;
    2554220882; 2821834349; 2952996808; 3210313671;
    3336571891; 3584528711; 113926993; 338241895;
    666307205; 773529912; 1294757372; 1396182291;
    1695183700; 1986661051; 2177026350; 2456956037;
    2730485921; 2820302411; 3259730800; 3345764771;
    3516065817; 3600352804; 4094571909; 275423344;
    430227734; 506948616; 659060556; 883997877;
    958139571; 1322822218; 1537002063; 1747873779;
    1955562222; 2024104815; 2227730452; 2361852424;
    2428436474; 2756734187; 3204031479; 3329325298 ].

(** The eight chaining words. *)
Record regs := Regs {
  ra : Z; rb : Z; rc : Z; rd : Z; re : Z; rf : Z; rg : Z; rh : Z
}.

(** The initial hash value: the first 32 bits of the fractional parts of the
    square roots of the first 8 primes. *)
Definition H0 : regs :=
  Regs 1779033703 3144134277 1013904242 2773480762
       1359893119 2600822924 528734635 1541459225.

(** Padding: the bit 1, zeros up to 56 modulo 64 octets, then the length in
    bits as a 64-bit big-endian integer. *)
Definition length_octets (bits : Z) : list Z :=
  map (fun k => Z.land (Z.shiftr bits (8 * k)) 255) [7; 6; 5; 4; 3; 2; 1; 0].

Definition pad (msg : list Z) : list Z :=
  let l := Z.of_nat (length msg) in
  msg ++ [128] ++ repeat 0 (Z.to_nat ((55 - l) mod 64)) ++ length_octets (8 * l).

(** The big-endian word of (up to) four octets. *)
Definition be_word (bs : list Z) : Z :=
  fold_left (fun acc b => Z.lor (Z.shiftl acc 8) b) bs 0.

(** The first [n] words of a block. *)
Fixpoint block_words (n : nat) (blk : list Z) : list Z :=
  match n with
  | O => []
  | S n' => be_word (take 4 blk) :: block_words n' (drop 4 blk)
  end.

(** The message schedule, most recent word first: each step adds
    W[t] = sigma1 W[t-2] + W[t-7] + sigma0 W[t-15] + W[t-16]. *)
Fixpoint extend (n : nat) (rw : list Z) : list Z :=
  match n with
  | O => rw
  | S n' =>
      let wt := add32 (add32 (add32 (sigma1 (nth 1 rw 0)) (nth 6 rw 0))
                             (sigma0 (nth 14 rw 0))) (nth 15 rw 0) in
      extend n' (wt :: rw)
  end.

Definition schedule (blk : list Z) : list Z :=
  rev (extend 48 (rev (block_words 16 blk))).

(** One round of the compression function. *)
Definition round (s : regs) (kw : Z * Z) : regs :=
  let t1 := add32 (add32 (add32 (add32 (rh s) (Sigma1 (re s)))
                                (Ch (re s) (rf s) (rg s))) (fst kw)) (snd kw) in
  let t2 := add32 (Sigma0 (ra s)) (Maj (ra s) (rb s) (rc s)) in
  Regs (add32 t1 t2) (ra s) (rb s) (rc s) (add32 (rd s) t1) (re s) (rf s) (rg s).

(** The compression of one 64-octet block into the chaining value. *)
Definition compress (h : regs) (blk : list Z) : regs :=
  let s := fold_left round (combine K (schedule blk)) h in
  Regs (add32 (ra h) (ra s)) (add32 (rb h) (rb s))
       (add32 (rc h) (rc s)) (add32 (rd h) (rd s))
       (add32 (re h) (re s)) (add32 (rf h) (rf s))
       (add32 (rg h) (rg s)) (add32 (rh h) (rh s)).

(** The blocks of the padded message, in order. *)
Fixpoint process (nblocks : nat) (padded : list Z) (h : regs) : regs :=
  match nblocks with
  | O => h
  | S n => process n (drop 64 padded) (compress h (take 64 padded))
  end.

Definition word_octets (w : Z) : list Z :=
  map (fun k => Z.land (Z.shiftr w (8 * k)) 255) [3; 2; 1; 0].

Definition regs_octets (h : regs) : list Z :=
  word_octets (ra h) ++ word_octets (rb h) ++ word_octets (rc h) ++
  word_octets (rd h) ++ word_octets (re h) ++ word_octets (rf h) ++
  word_octets (rg h) ++ word_octets (rh h).

(** [hashlib.sha256(msg).digest()] *)
Definition digest (msg : Py.bytes) : Py.bytes :=
  let padded := pad msg in
  regs_octets (process (length padded / 64) padded H0).

(** [hashlib.sha256(msg).hexdigest()] *)
Definition hexdigest (msg : Py.bytes) : Py.str :=
  flat_map (Py.hex_fixed 2) (digest msg).

End SHA256.

Import Py.
Local Open Scope py_scope.

(* ===================================================================== *)
(** * The service                                                         *)
(* ===================================================================== *)

(** A result dictionary: string keys, Python values. *)
Abbreviation dict := (gmap string value).

(** The attributes of a [BlockchainService] object. *)
Record BlockchainService := {
  infura_api_key : option str;
  network_url : option str
}.

(** [BlockchainService.__init__]: both attributes come from the
    environment as it is when the object is built. *)
Definition __init__ (rt : Runtime) : BlockchainService :=
  let key := getenv rt "INFURA_API_KEY" in
  {| infura_api_key := key;
     network_url :=
       if truthy key
       then Some (lit "https://sepolia.infura.io/v3/" ++ default [] key)
       else None |}.

(** [str.startswith] *)
Fixpoint startswith (s prefix : str) {struct prefix} : bool :=
  match prefix, s with
  | [], _ => true
  | p :: prefix', c :: s' => (c =? p)%Z && startswith s' prefix'
  | _ :: _, [] => false
  end.

(** [_generate_mock_tx_hash]: the f-string is formatted field by field, the
    result is encoded, digested, and the first 40 digits are kept. *)
Definition _generate_mock_tx_hash (self : BlockchainService) (rt : Runtime)
    (certificate_hash : str) (institution_id : Z) : result str :=
  let* id := int_str rt institution_id in
  let data := certificate_hash ++ lit "_" ++ id ++ lit "_" ++
              getenv_default rt "SECRET_KEY" (lit "default") in
  let* encoded := encode data in
  Ok (lit "0x" ++ take 40 (SHA256.hexdigest encoded)).

(** [_simulate_blockchain_verification] *)
Definition _simulate_blockchain_verification (self : BlockchainService)
    (certificate_hash : str) : bool :=
  (0 <? length certificate_hash)%nat && startswith certificate_hash (lit "a").

(** The body of the [try] block of [store_certificate_hash]. *)
Definition store_certificate_hash_try (self : BlockchainService) (rt : Runtime)
    (certificate_hash : str) (institution_id : Z) : result dict :=
  if negb (truthy (infura_api_key self)) then
    Ok {[ "success" := VBool false;
          "error" := VStr (lit "Blockchain service not configured. INFURA_API_KEY is missing.");
          "tx_hash" := VNone ]}
  else
    let* mock_tx_hash := _generate_mock_tx_hash self rt certificate_hash institution_id in
    Ok {[ "success" := VBool true;
          "tx_hash" := VStr mock_tx_hash;
          "block_number" := VInt 12345678;
          "gas_used" := VInt 21000;
          "message" := VStr (lit "Certificate hash stored on blockchain successfully") ]}.

(** [store_certificate_hash] *)
Definition store_certificate_hash (self : BlockchainService) (rt : Runtime)
    (certificate_hash : str) (institution_id : Z) : dict :=
  try_except (store_certificate_hash_try self rt certificate_hash institution_id)
    (fun e =>
       {[ "success" := VBool false;
          "error" := VStr (lit "Blockchain transaction failed: " ++ exn_str e);
          "tx_hash" := VNone ]}).

(** The body of the [try] block of [verify_certificate_hash]. The entries
    of the dictionary display are evaluated in order; only the transaction
    hash can raise. *)
Definition verify_certificate_hash_try (self : BlockchainService) (rt : Runtime)
    (certificate_hash : str) : result dict :=
  if negb (truthy (infura_api_key self)) then
    Ok {[ "verified" := VBool false;
          "error" := VStr (lit "Blockchain service not configured");
          "tx_hash" := VNone ]}
  else
    let is_verified := _simulate_blockchain_verification self certificate_hash in
    let* tx_hash :=
      if is_verified
      then let* h := _generate_mock_tx_hash self rt certificate_hash 1 in Ok (VStr h)
      else Ok VNone in
    Ok {[ "verified" := VBool is_verified;
          "tx_hash" := tx_hash;
          "block_number" := if is_verified then VInt 12345678 else VNone;
          "message" :=
            VStr (if is_verified
                  then lit "Certificate verified on blockchain"
                  else lit "Certificate not found on blockchain") ]}.

(** [verify_certificate_hash] *)
Definition verify_certificate_hash (self : BlockchainService) (rt : Runtime)
    (certificate_hash : str) : dict :=
  try_except (verify_certificate_hash_try self rt certificate_hash)
    (fun e =>
       {[ "verified" := VBool false;
          "error" := VStr (lit "Blockchain verification failed: " ++ exn_str e);
          "tx_hash" := VNone ]}).

(** The module-level instance, built when the module is imported, in the
    environment [rt0] of that moment. *)
Definition blockchain_service (rt0 : Runtime) : BlockchainService := __init__ rt0.

Definition store_certificate_on_blockchain (rt0 rt : Runtime)
    (certificate_hash : str) (institution_id : Z) : dict :=
  store_certificate_hash (blockchain_service rt0) rt certificate_hash institution_id.

Definition verify_certificate_on_blockchain (rt0 rt : Runtime)
    (certificate_hash : str) : dict :=
  verify_certificate_hash (blockchain_service rt0) rt certificate_hash.

(** ** Sequences of calls *)

(** A call of one of the two public operations. *)
Inductive call :=
| Store (certificate_hash : str) (institution_id : Z)
| Verify (certificate_hash : str).

Definition perform (self : BlockchainService) (rt : Runtime) (c : call) : dict :=
  match c with
  | Store h i => store_certificate_hash self rt h i
  | Verify h => verify_certificate_hash self rt h
  end.

(** The responses to a sequence of calls. No method assigns to [self] or to
    the environment, and the class keeps no record of earlier calls: every
    call runs against the same object. *)
Definition session (self : BlockchainService) (rt : Runtime)
    (calls : list call) : list dict :=
  map (perform self rt) calls.

(** A well-formed content hash in the sense of the specification's data
    model: 64 hexadecimal digits. Nothing in the module checks it. *)
Definition is_hex_char (c : Z) : bool :=
  is_hex c || ((65 <=? c) && (c <=? 70))%Z.

Definition valid_content_hash (h : str) : bool :=
  (length h =? 64)%nat && forallb is_hex_char h.

(** A process in which the service is configured: an API key is set,
    [SECRET_KEY] is not, and the interpreter has its default digit limit. *)
Definition configured_runtime : Runtime :=
  {| environ := {[ "INFURA_API_KEY" := lit "demo-key" ]};
     int_max_str_digits := 4300 |}.

(** A process without any of the variables the module reads. *)
Definition bare_runtime : Runtime :=
  {| environ := ∅; int_max_str_digits := 4300 |}.

(** The digest of "hello world", a well-formed content hash. *)
Definition sample_hash : str :=
  lit "b94d27b9934d3e08a52e52d7da7dabfac484efe37a5380ee9088f7ace2efcde9".

(** [os.getenv('SECRET_KEY', 'default')] *)
Abbreviation secret_key rt := (getenv_default rt "SECRET_KEY" (lit "default")).

(** The string [_generate_mock_tx_hash] hands to [encode], once the
    institution id is rendered:
    [f"{certificate_hash}_{institution_id}_{os.getenv('SECRET_KEY', 'default')}"]. *)
Definition mock_tx_data (rt : Runtime) (certificate_hash : str)
    (institution_id : Z) : str :=
  certificate_hash ++ lit "_" ++ decimal institution_id ++ lit "_" ++ secret_key rt.

(** The answers of a service without an API key. *)
Definition store_not_configured : dict :=
  {[ "success" := VBool false;
     "error" := VStr (lit "Blockchain service not configured. INFURA_API_KEY is missing.");
     "tx_hash" := VNone ]}.

Definition verify_not_configured : dict :=
  {[ "verified" := VBool false;
     "error" := VStr (lit "Blockchain service not configured");
     "tx_hash" := VNone ]}.

(** A process in which INFURA_API_KEY is set, but to the empty string. *)
Definition empty_key_runtime : Runtime :=
  {| environ := {[ "INFURA_API_KEY" := [] ]}; int_max_str_digits := 4300 |}.

(** A process with another API key, an explicit SECRET_KEY equal to the
    default, and an unrelated variable. *)
Definition other_runtime : Runtime :=
  {| environ := {[ "INFURA_API_KEY" := lit "another-key";
                   "SECRET_KEY" := lit "default";
                   "FLASK_ENV" := lit "production" ]};
     int_max_str_digits := 4300 |}.

(** The responses to a sequence of calls, each made in the environment of
    its moment: the object is the same throughout, but SECRET_KEY is read
    again at every call, and the process may have changed it in between. *)
Definition replay (self : BlockchainService)
    (timeline : list (Runtime * call)) : list dict :=
  map (fun step => perform self (fst step) (snd step)) timeline.

(** The configured process after its SECRET_KEY has been set to a new value. *)
Definition rotated_runtime : Runtime :=
  {| environ := {[ "INFURA_API_KEY" := lit "demo-key";
                   "SECRET_KEY" := lit "rotated" ]};
     int_max_str_digits := 4300 |}.

(** The code points a [str] can hold: U+0000..U+10FFFF. *)
Definition is_code_point (c : Z) : bool :=
  ((0 <=? c) && (c <? 0x110000))%Z.

Definition well_formed (s : str) : bool := forallb is_code_point s.

(** The first 64 primes, from which FIPS 180-4 derives its constants. *)
Definition first_primes : list Z := [
    2; 3; 5; 7; 11; 13; 17; 19; 23; 29; 31; 37; 41; 43; 47; 53;
    59; 61; 67; 71; 73; 79; 83; 89; 97; 101; 103; 107; 109; 113; 127; 131;
    137; 139; 149; 151; 157; 163; 167; 173; 179; 181; 191; 193; 197; 199; 211; 223;
    227; 229; 233; 239; 241; 251; 257; 263; 269; 271; 277; 281; 283; 293; 307; 311 ]%Z.

(** [frac] is the leading 32 fractional bits of the [n]-th root of [p]. *)
Definition is_root_fraction (n p frac : Z) : bool :=
  existsb (fun whole =>
             let r := (whole * 2 ^ 32 + frac)%Z in
             (r ^ n <=? p * 2 ^ (32 * n))%Z && (p * 2 ^ (32 * n) <? (r + 1) ^ n)%Z)
          [1; 2; 3; 4; 5; 6]%Z.

(* ===================================================================== *)
(** * Checks of the runtime fragment against known values                 *)
(* ===================================================================== *)

Example sha256_empty :
  SHA256.hexdigest [] =
  lit "e3b0c44298fc1c149afbf4c8996fb92427ae41e4649b934ca495991b7852b855".
Proof. vm_compute. reflexivity. Qed.

Example sha256_abc :
  SHA256.hexdigest (lit "abc") =
  lit "ba7816bf8f01cfea414140de5dae2223b00361a396177a9cb410ff61f20015ad".
Proof. vm_compute. reflexivity. Qed.

(** A message of 56 octets, so that the padding spills into a second block. *)
Example sha256_two_blocks :
  SHA256.hexdigest
    (lit "abcdbcdecdefdefgefghfghighijhijkijkljklmklmnlmnomnopnopq") =
  lit "248d6a61d20638b8e5c026930c3e6039a33ce45964ff2167f6ecedd419db06c1".
Proof. vm_compute. reflexivity. Qed.

(** The round constants are the leading 32 fractional bits of the cube
    roots of the first 64 primes, the initial hash value those of the square
    roots of the first 8. *)
Example round_constants :
  length SHA256.K = 64 /\
  forallb (fun pk => is_root_fraction 3 (fst pk) (snd pk))
          (combine first_primes SHA256.K) = true.
Proof. vm_compute. auto. Qed.

Example initial_hash_value :
  let h := SHA256.H0 in
  forallb (fun pk => is_root_fraction 2 (fst pk) (snd pk))
          (combine first_primes
             [SHA256.ra h; SHA256.rb h; SHA256.rc h; SHA256.rd h;
              SHA256.re h; SHA256.rf h; SHA256.rg h; SHA256.rh h]) = true.
Proof. vm_compute. reflexivity. Qed.

(** The euro sign, an emoji and an accented letter. *)
Example encode_multibyte :
  encode [0x20AC; 0x1F600; 0xE9]%Z =
  Ok [226; 130; 172; 240; 159; 152; 128; 195; 169]%Z.
Proof. reflexivity. Qed.

Example encode_lone_surrogates :
  encode [97; 0xD800; 0xDC00; 98]%Z =
  Raise (UnicodeEncodeError [97; 0xD800; 0xDC00; 98]%Z 1 3).
Proof. reflexivity. Qed.

Example exn_str_one_surrogate :
  exn_str (UnicodeEncodeError [97; 0xD800]%Z 1 2) =
  lit "'utf-8' codec can't encode character '\ud800' in position 1: surrogates not allowed".
Proof. vm_compute. reflexivity. Qed.

Example decimal_examples :
  decimal 0 = lit "0" /\ decimal (-12) = lit "-12" /\ decimal 4300 = lit "4300".
Proof. vm_compute. auto. Qed.

(* ===================================================================== *)
(** * Lemmas on the runtime fragment                                      *)
(* ===================================================================== *)

Section Rendering.
Local Open Scope Z_scope.

Lemma nibble_range x : 0 <= Z.land x 15 < 16.
Proof.
  change 15 with (Z.ones 4). rewrite Z.land_ones by lia.
  apply Z.mod_pos_bound. reflexivity.
Qed.

Lemma hexdigit_is_hex n : 0 <= n < 16 -> is_hex (hexdigit n) = true.
Proof.
  intros Hn. unfold is_hex, hexdigit.
  destruct (Z.ltb_spec n 10); lia.
Qed.

Lemma hex_fixed_length w x : length (hex_fixed w x) = w.
Proof.
  revert x. induction w as [|w IH]; intros x; [reflexivity|].
  cbn [hex_fixed]. rewrite length_app, IH. cbn. lia.
Qed.

Lemma hex_fixed_is_hex w x : forallb is_hex (hex_fixed w x) = true.
Proof.
  revert x. induction w as [|w IH]; intros x; [reflexivity|].
  cbn [hex_fixed]. rewrite forallb_app, IH. cbn [forallb].
  rewrite hexdigit_is_hex by apply nibble_range. reflexivity.
Qed.

Lemma lit_char_range s : Forall (fun c => 0 <= c < 256) (lit s).
Proof.
  unfold lit. induction s as [|a s IH]; cbn [list_ascii_of_string map].
  - constructor.
  - constructor; [|exact IH].
    pose proof (N_ascii_bounded a). lia.
Qed.

End Rendering.

Section Encoding.

Lemma encodable_app s t : encodable (s ++ t) = encodable s && encodable t.
Proof. apply forallb_app. Qed.

Lemma encodable_lit s : encodable (lit s) = true.
Proof.
  unfold encodable. apply forallb_forall. intros c Hc.
  pose proof (lit_char_range s) as Hr.
  rewrite List.Forall_forall in Hr. specialize (Hr c Hc).
  unfold is_surrogate. 
  destruct (Z.leb_spec 0xD800 c); [lia | reflexivity].
Qed.

Lemma encodable_decimal n : encodable (decimal n) = true.
Proof. apply encodable_lit. Qed.

(** Without a surrogate the encoder returns, one code point at a time. *)
Lemma utf8_from_encodable object pos s :
  encodable s = true -> utf8_from object pos s = Ok (flat_map utf8_char s).
Proof.
  revert pos. induction s as [|c s IH]; intros pos Hs; [reflexivity|].
  cbn [encodable forallb] in Hs. apply andb_prop in Hs as [Hc Hs].
  cbn [utf8_from flat_map]. apply negb_true_iff in Hc. rewrite Hc.
  rewrite (IH (S pos) Hs). reflexivity.
Qed.

(** With a surrogate it raises [UnicodeEncodeError]. *)
Lemma utf8_from_surrogate object pos s :
  encodable s = false ->
  exists start stop, utf8_from object pos s = Raise (UnicodeEncodeError object start stop).
Proof.
  revert pos. induction s as [|c s IH]; intros pos Hs; [discriminate|].
  cbn [encodable forallb] in Hs. cbn [utf8_from].
  destruct (is_surrogate c) eqn:Hc; [eauto|].
  cbn [negb andb] in Hs. destruct (IH (S pos) Hs) as (a & b & ->).
  cbn [bind]. eauto.
Qed.

Lemma encode_encodable s :
  encodable s = true -> encode s = Ok (flat_map utf8_char s).
Proof. apply utf8_from_encodable. Qed.

Lemma encode_surrogate s :
  encodable s = false -> exists e, encode s = Raise e.
Proof.
  intros Hs. destruct (utf8_from_surrogate s O s Hs) as (a & b & H). eauto.
Qed.

End Encoding.

Section Digest.

Lemma hexdigest_length msg : length (SHA256.hexdigest msg) = 64%nat.
Proof.
  unfold SHA256.hexdigest, SHA256.digest.
  generalize (SHA256.process (length (SHA256.pad msg) / 64) (SHA256.pad msg) SHA256.H0).
  intros r. reflexivity.
Qed.

Lemma hexdigest_is_hex msg : forallb is_hex (SHA256.hexdigest msg) = true.
Proof.
  unfold SHA256.hexdigest. induction (SHA256.digest msg) as [|b bs IH]; [reflexivity|].
  cbn [flat_map]. rewrite forallb_app, hex_fixed_is_hex, IH. reflexivity.
Qed.

Lemma forallb_take {A} (f : A -> bool) n l :
  forallb f l = true -> forallb f (take n l) = true.
Proof.
  revert n. induction l as [|x l IH]; intros [|n] H; try reflexivity.
  cbn [forallb] in H. apply andb_prop in H as [Hx Hl].
  cbn [take forallb]. rewrite Hx, (IH n Hl). reflexivity.
Qed.

(** The 40 digits [_generate_mock_tx_hash] keeps. *)
Lemma hexdigest_prefix msg :
  length (take 40 (SHA256.hexdigest msg)) = 40%nat /\
  forallb is_hex (take 40 (SHA256.hexdigest msg)) = true.
Proof.
  split.
  - rewrite length_take, hexdigest_length. reflexivity.
  - apply forallb_take, hexdigest_is_hex.
Qed.

End Digest.

(* ===================================================================== *)
(** * Lemmas on the service                                               *)
(* ===================================================================== *)

Section Service.
Variable self : BlockchainService.
Variable rt : Runtime.

(** The institution id [1] that [verify_certificate_hash] passes is within
    every digit limit. *)
Lemma int_str_allowed_one : int_str_allowed rt 1 = true.
Proof. unfold int_str_allowed. destruct (int_max_str_digits rt); reflexivity. Qed.

(** The string [_generate_mock_tx_hash] encodes. *)
Lemma encodable_data h id :
  encodable (h ++ lit "_" ++ decimal id ++ lit "_" ++ secret_key rt) =
  encodable h && encodable (secret_key rt).
Proof.
  rewrite !encodable_app, !encodable_lit, encodable_decimal. reflexivity.
Qed.

(** [_generate_mock_tx_hash] returns exactly when the id may be rendered
    and neither the hash nor the secret holds a surrogate. *)
Lemma generate_mock_tx_hash_returns h i :
  int_str_allowed rt i = true ->
  encodable h = true ->
  encodable (secret_key rt) = true ->
  exists digits,
    _generate_mock_tx_hash self rt h i = Ok (lit "0x" ++ digits) /\
    length digits = 40 /\ forallb is_hex digits = true.
Proof.
  intros Hi Hh Hk. unfold _generate_mock_tx_hash, int_str. rewrite Hi. cbn [bind].
  rewrite encode_encodable by (rewrite encodable_data, Hh, Hk; reflexivity).
  cbn [bind]. eexists. split; [reflexivity|]. apply hexdigest_prefix.
Qed.

Lemma generate_mock_tx_hash_raises h i :
  int_str_allowed rt i && encodable h && encodable (secret_key rt) = false ->
  exists e, _generate_mock_tx_hash self rt h i = Raise e.
Proof.
  intros H. unfold _generate_mock_tx_hash, int_str.
  destruct (int_str_allowed rt i); [|cbn [bind]; eauto].
  cbn [bind]. cbn [andb] in H. rewrite <- (encodable_data h i) in H.
  destruct (encode_surrogate _ H) as [e ->]. cbn [bind]. eauto.
Qed.

(** [startswith('a')] looks at the first code point only. *)
Lemma simulate_blockchain_verification_head h :
  _simulate_blockchain_verification self h = true <-> head h = Some 97%Z.
Proof.
  unfold _simulate_blockchain_verification. destruct h as [|c h].
  - cbn. split; discriminate.
  - change (lit "a") with [97%Z]. cbn [length startswith head Nat.ltb Nat.leb andb].
    destruct (Z.eqb_spec c 97) as [->|Hc]; cbn [andb].
    + split; reflexivity.
    + split; [discriminate | congruence].
Qed.

Lemma simulate_blockchain_verification_false h :
  head h <> Some 97%Z -> _simulate_blockchain_verification self h = false.
Proof.
  intros H. apply not_true_is_false. rewrite simulate_blockchain_verification_head. exact H.
Qed.

(** Without an API key both operations answer at once. *)
Lemma store_unconfigured h i :
  truthy (infura_api_key self) = false ->
  store_certificate_hash self rt h i =
  {[ "success" := VBool false;
     "error" := VStr (lit "Blockchain service not configured. INFURA_API_KEY is missing.");
     "tx_hash" := VNone ]}.
Proof.
  intros H. unfold store_certificate_hash, store_certificate_hash_try.
  rewrite H. reflexivity.
Qed.

Lemma verify_unconfigured h :
  truthy (infura_api_key self) = false ->
  verify_certificate_hash self rt h =
  {[ "verified" := VBool false;
     "error" := VStr (lit "Blockchain service not configured");
     "tx_hash" := VNone ]}.
Proof.
  intros H. unfold verify_certificate_hash, verify_certificate_hash_try.
  rewrite H. reflexivity.
Qed.

(** With an API key, [store_certificate_hash] is decided by
    [_generate_mock_tx_hash]. *)
Lemma store_configured h i :
  truthy (infura_api_key self) = true ->
  store_certificate_hash self rt h i =
  match _generate_mock_tx_hash self rt h i with
  | Ok tx =>
      {[ "success" := VBool true;
         "tx_hash" := VStr tx;
         "block_number" := VInt 12345678;
         "gas_used" := VInt 21000;
         "message" := VStr (lit "Certificate hash stored on blockchain successfully") ]}
  | Raise e =>
      {[ "success" := VBool false;
         "error" := VStr (lit "Blockchain transaction failed: " ++ exn_str e);
         "tx_hash" := VNone ]}
  end.
Proof.
  intros H. unfold store_certificate_hash, store_certificate_hash_try.
  rewrite H. cbn [negb]. destruct (_generate_mock_tx_hash self rt h i); reflexivity.
Qed.

(** With an API key, a hash that does not pass the simulated check is
    reported as not found. *)
Lemma verify_configured_not_found h :
  truthy (infura_api_key self) = true ->
  _simulate_blockchain_verification self h = false ->
  verify_certificate_hash self rt h =
  {[ "verified" := VBool false;
     "tx_hash" := VNone;
     "block_number" := VNone;
     "message" := VStr (lit "Certificate not found on blockchain") ]}.
Proof.
  intros H Hv. unfold verify_certificate_hash, verify_certificate_hash_try.
  rewrite H, Hv. reflexivity.
Qed.

(** With an API key, a hash that passes the check is decided by
    [_generate_mock_tx_hash] at institution id 1. *)
Lemma verify_configured_found h :
  truthy (infura_api_key self) = true ->
  _simulate_blockchain_verification self h = true ->
  verify_certificate_hash self rt h =
  match _generate_mock_tx_hash self rt h 1 with
  | Ok tx =>
      {[ "verified" := VBool true;
         "tx_hash" := VStr tx;
         "block_number" := VInt 12345678;
         "message" := VStr (lit "Certificate verified on blockchain") ]}
  | Raise e =>
      {[ "verified" := VBool false;
         "error" := VStr (lit "Blockchain verification failed: " ++ exn_str e);
         "tx_hash" := VNone ]}
  end.
Proof.
  intros H Hv. unfold verify_certificate_hash, verify_certificate_hash_try.
  rewrite H, Hv. cbn [negb]. destruct (_generate_mock_tx_hash self rt h 1); reflexivity.
Qed.

(** The response to the last call of a sequence. *)
Lemma session_last calls c :
  last (session self rt (calls ++ [c])) = Some (perform self rt c).
Proof. unfold session. rewrite map_app. cbn [map]. apply last_snoc. Qed.

End Service.

(** The module-level instance has a key exactly when the variable was set
    to a non-empty string at import. *)
Lemma blockchain_service_key rt0 :
  infura_api_key (blockchain_service rt0) = getenv rt0 "INFURA_API_KEY".
Proof. reflexivity. Qed.

(* ===================================================================== *)
(** * Properties of the public operations                                 *)
(* ===================================================================== *)

(** C1, as stated, does not hold: the hash "a" was never anchored (the only
    earlier call anchors another hash), and the configured service still
    reports it as verified. *)
Lemma verify_unsubmitted_hash_counterexample :
  let self := blockchain_service configured_runtime in
  let calls := [Store sample_hash 7] in
  truthy (infura_api_key self) = true /\
  (forall i, Store (lit "a") i ∉ calls) /\
  last (session self configured_runtime (calls ++ [Verify (lit "a")])) =
  Some {[ "verified" := VBool true;
          "tx_hash" := VStr (lit "0xe55369c7ee53df0fd80ac484f08edf2c7769b450");
          "block_number" := VInt 12345678;
          "message" := VStr (lit "Certificate verified on blockchain") ]}.
Proof.
  cbv zeta. split; [reflexivity|]. split.
  - intros i Hin. apply list_elem_of_singleton in Hin. discriminate Hin.
  - vm_compute. reflexivity.
Qed.

(** C1, amended: with the service configured, a hash that was never
    anchored and that is empty or does not begin with 'a' is reported as not
    found, after any sequence of earlier calls. *)
Theorem verify_unsubmitted_not_found self rt calls h :
  truthy (infura_api_key self) = true ->
  (forall i, Store h i ∉ calls) ->
  head h <> Some 97%Z ->
  last (session self rt (calls ++ [Verify h])) =
  Some {[ "verified" := VBool false;
          "tx_hash" := VNone;
          "block_number" := VNone;
          "message" := VStr (lit "Certificate not found on blockchain") ]}.
Proof.
  intros Hkey _ Hhead. rewrite session_last. cbn [perform]. f_equal.
  apply verify_configured_not_found; [exact Hkey|].
  apply simulate_blockchain_verification_false, Hhead.
Qed.

Lemma verify_unsubmitted_not_found_witness :
  truthy (infura_api_key (blockchain_service configured_runtime)) = true /\
  (forall i, Store (lit "c0ffee") i ∉ [Store sample_hash 7]) /\
  head (lit "c0ffee") <> Some 97%Z /\
  last (session (blockchain_service configured_runtime) configured_runtime
          ([Store sample_hash 7] ++ [Verify (lit "c0ffee")])) =
  Some {[ "verified" := VBool false;
          "tx_hash" := VNone;
          "block_number" := VNone;
          "message" := VStr (lit "Certificate not found on blockchain") ]}.
Proof.
  assert (forall i, Store (lit "c0ffee") i ∉ [Store sample_hash 7]) as Hfresh.
  { intros i Hin. apply list_elem_of_singleton in Hin. discriminate Hin. }
  split; [reflexivity|]. split; [exact Hfresh|]. split; [discriminate|].
  apply verify_unsubmitted_not_found; [reflexivity | exact Hfresh | discriminate].
Defined.

(** C2, as stated, does not hold: the hash made of 'a' and the lone
    surrogate U+D800 begins with 'a', yet the configured service answers
    verified=false, because encoding the hash raises. *)
Lemma verify_a_prefix_counterexample :
  let self := blockchain_service configured_runtime in
  let h := [97; 0xD800]%Z in
  truthy (infura_api_key self) = true /\
  head h = Some 97%Z /\
  verify_certificate_hash self configured_runtime h =
  {[ "verified" := VBool false;
     "error" := VStr (lit "Blockchain verification failed: 'utf-8' codec can't encode character '\ud800' in position 1: surrogates not allowed");
     "tx_hash" := VNone ]}.
Proof.
  cbv zeta. split; [reflexivity|]. split; [reflexivity|].
  vm_compute. reflexivity.
Qed.

(** C2, amended: with the service configured, every hash that begins with
    'a' and can be encoded (as can SECRET_KEY) is reported as verified, with
    the mock transaction hash for institution 1 and block 12345678, after any
    sequence of earlier calls. *)
Theorem verify_a_prefix_verified self rt calls h :
  truthy (infura_api_key self) = true ->
  head h = Some 97%Z ->
  encodable h = true ->
  encodable (secret_key rt) = true ->
  exists tx,
    _generate_mock_tx_hash self rt h 1 = Ok tx /\
    last (session self rt (calls ++ [Verify h])) =
    Some {[ "verified" := VBool true;
            "tx_hash" := VStr tx;
            "block_number" := VInt 12345678;
            "message" := VStr (lit "Certificate verified on blockchain") ]}.
Proof.
  intros Hkey Hhead Hh Hs.
  destruct (generate_mock_tx_hash_returns self rt h 1) as (digits & Htx & _);
    auto using int_str_allowed_one.
  exists (lit "0x" ++ digits). split; [exact Htx|].
  rewrite session_last. cbn [perform]. f_equal.
  rewrite verify_configured_found, Htx; auto.
  apply simulate_blockchain_verification_head, Hhead.
Qed.

Lemma verify_a_prefix_verified_witness :
  truthy (infura_api_key (blockchain_service configured_runtime)) = true /\
  head (lit "a") = Some 97%Z /\
  encodable (lit "a") = true /\
  encodable (secret_key configured_runtime) = true /\
  exists tx,
    _generate_mock_tx_hash (blockchain_service configured_runtime)
      configured_runtime (lit "a") 1 = Ok tx /\
    last (session (blockchain_service configured_runtime) configured_runtime
            ([] ++ [Verify (lit "a")])) =
    Some {[ "verified" := VBool true;
            "tx_hash" := VStr tx;
            "block_number" := VInt 12345678;
            "message" := VStr (lit "Certificate verified on blockchain") ]}.
Proof.
  split; [reflexivity|]. split; [reflexivity|].
  split; [reflexivity|]. split; [reflexivity|].
  apply verify_a_prefix_verified; reflexivity.
Defined.

(** The environment reaches [store_certificate_hash] through SECRET_KEY and
    the digit limit only. *)
Lemma store_certificate_hash_same_secret self rt1 rt2 h i :
  secret_key rt1 = secret_key rt2 ->
  int_max_str_digits rt1 = int_max_str_digits rt2 ->
  store_certificate_hash self rt1 h i = store_certificate_hash self rt2 h i.
Proof.
  intros Hsecret Hlimit.
  unfold store_certificate_hash, store_certificate_hash_try,
    _generate_mock_tx_hash, int_str, int_str_allowed.
  rewrite Hsecret, Hlimit. reflexivity.
Qed.

(** C3, as stated, does not hold: the same well-formed hash is anchored
    twice for the same institution on the same configured object, SECRET_KEY
    having been changed in between, and the second record carries another
    transaction hash than the first. *)
Lemma store_twice_counterexample :
  let self := blockchain_service configured_runtime in
  valid_content_hash sample_hash = true /\
  replay self [(configured_runtime, Store sample_hash 7);
               (rotated_runtime, Store sample_hash 7)] =
  [ {[ "success" := VBool true;
       "tx_hash" := VStr (lit "0x97fbfedce201f21392e990cbd37a4a948fb41b85");
       "block_number" := VInt 12345678;
       "gas_used" := VInt 21000;
       "message" := VStr (lit "Certificate hash stored on blockchain successfully") ]};
    {[ "success" := VBool true;
       "tx_hash" := VStr (lit "0x121dda4e08770571187ce0d125669db71766fd80");
       "block_number" := VInt 12345678;
       "gas_used" := VInt 21000;
       "message" := VStr (lit "Certificate hash stored on blockchain successfully") ]} ] /\
  store_certificate_hash self configured_runtime sample_hash 7 <>
  store_certificate_hash self rotated_runtime sample_hash 7.
Proof.
  cbv zeta. split; [reflexivity|]. split.
  - vm_compute. reflexivity.
  - intros H. apply (f_equal (fun d : dict => d !! "tx_hash")) in H.
    vm_compute in H. discriminate H.
Qed.

(** C3, amended: anchoring the same hash for the same institution twice on
    the same object returns the same record both times, whatever calls are
    made in between and in whatever environments, provided SECRET_KEY (unset
    counting as "default") and the digit limit are the same at the two
    calls. *)
Theorem store_twice_same_record self rt1 rt2 h i between later :
  secret_key rt1 = secret_key rt2 ->
  int_max_str_digits rt1 = int_max_str_digits rt2 ->
  let record := store_certificate_hash self rt1 h i in
  let responses :=
    replay self ((rt1, Store h i) :: between ++ (rt2, Store h i) :: later) in
  responses !! 0%nat = Some record /\
  responses !! S (length between) = Some record.
Proof.
  intros Hsecret Hlimit. cbv zeta. unfold replay. cbn [map fst snd perform].
  split; [reflexivity|].
  rewrite map_app. cbn [map fst snd perform lookup list_lookup].
  rewrite <- (store_certificate_hash_same_secret self rt1 rt2 h i Hsecret Hlimit).
  apply list_lookup_middle. rewrite length_map. reflexivity.
Qed.

Lemma store_twice_same_record_witness :
  let self := blockchain_service configured_runtime in
  let between := [(rotated_runtime, Store sample_hash 7);
                  (rotated_runtime, Verify (lit "a"))] in
  secret_key configured_runtime = secret_key other_runtime /\
  int_max_str_digits configured_runtime = int_max_str_digits other_runtime /\
  replay self ((configured_runtime, Store sample_hash 7) ::
               between ++ [(other_runtime, Store sample_hash 7)]) !! 3%nat =
  Some (store_certificate_hash self configured_runtime sample_hash 7).
Proof.
  cbv zeta. split; [reflexivity|]. split; [reflexivity|].
  apply (store_twice_same_record (blockchain_service configured_runtime)
           configured_runtime other_runtime sample_hash 7
           [(rotated_runtime, Store sample_hash 7);
            (rotated_runtime, Verify (lit "a"))] []); reflexivity.
Defined.

(** C4: when INFURA_API_KEY is absent at import, anchoring answers at once
    with the configuration error and a null transaction hash. *)
Theorem store_without_api_key rt0 rt h i :
  getenv rt0 "INFURA_API_KEY" = None ->
  store_certificate_on_blockchain rt0 rt h i =
  {[ "success" := VBool false;
     "error" := VStr (lit "Blockchain service not configured. INFURA_API_KEY is missing.");
     "tx_hash" := VNone ]}.
Proof.
  intros Hkey. unfold store_certificate_on_blockchain.
  apply store_unconfigured. rewrite blockchain_service_key, Hkey. reflexivity.
Qed.

Lemma store_without_api_key_witness :
  getenv bare_runtime "INFURA_API_KEY" = None /\
  store_certificate_on_blockchain bare_runtime bare_runtime sample_hash 7 =
  {[ "success" := VBool false;
     "error" := VStr (lit "Blockchain service not configured. INFURA_API_KEY is missing.");
     "tx_hash" := VNone ]}.
Proof. split; [reflexivity|]. apply store_without_api_key. reflexivity. Defined.

(** C5, as stated, does not hold: "xyz" is not a 64-digit hexadecimal
    string, and the configured service accepts it into the success path. *)
Lemma store_malformed_hash_counterexample :
  let self := blockchain_service configured_runtime in
  valid_content_hash (lit "xyz") = false /\
  truthy (infura_api_key self) = true /\
  store_certificate_hash self configured_runtime (lit "xyz") 7 =
  {[ "success" := VBool true;
     "tx_hash" := VStr (lit "0x46d5d79e1d014fe0297402b7cd369ddaedd0b714");
     "block_number" := VInt 12345678;
     "gas_used" := VInt 21000;
     "message" := VStr (lit "Certificate hash stored on blockchain successfully") ]}.
Proof.
  cbv zeta. split; [reflexivity|]. split; [reflexivity|].
  vm_compute. reflexivity.
Qed.

(** C5, amended: the anchoring operation does not validate the content
    hash. With the service configured (the id within the digit limit,
    SECRET_KEY encodable), a hash is accepted exactly when it can be
    encoded, whatever its length and characters; a hash that cannot be
    encoded is answered with a "Blockchain transaction failed" error. *)
Theorem store_accepts_iff_encodable self rt h i :
  truthy (infura_api_key self) = true ->
  int_str_allowed rt i = true ->
  encodable (secret_key rt) = true ->
  store_certificate_hash self rt h i !! "success" = Some (VBool (encodable h)) /\
  (encodable h = false ->
   exists e, store_certificate_hash self rt h i !! "error" =
             Some (VStr (lit "Blockchain transaction failed: " ++ exn_str e))).
Proof.
  intros Hkey Hi Hs. rewrite store_configured by exact Hkey.
  destruct (encodable h) eqn:Hh.
  - destruct (generate_mock_tx_hash_returns self rt h i Hi Hh Hs) as (d & -> & _).
    split; [reflexivity | discriminate].
  - destruct (generate_mock_tx_hash_raises self rt h i) as [e ->].
    { rewrite Hi, Hh. reflexivity. }
    split; [reflexivity|]. intros _. exists e. reflexivity.
Qed.

Lemma store_accepts_iff_encodable_witness :
  truthy (infura_api_key (blockchain_service configured_runtime)) = true /\
  int_str_allowed configured_runtime 7 = true /\
  encodable (secret_key configured_runtime) = true /\
  store_certificate_hash (blockchain_service configured_runtime)
    configured_runtime (lit "xyz") 7 !! "success" = Some (VBool (encodable (lit "xyz"))).
Proof.
  split; [reflexivity|]. split; [reflexivity|]. split; [reflexivity|].
  apply (store_accepts_iff_encodable (blockchain_service configured_runtime)
           configured_runtime (lit "xyz") 7); reflexivity.
Defined.

(** C6 at a well-formed hash that does not begin with 'a': the anchoring
    succeeds, and the verification that follows reports the hash as not
    found. *)
Theorem anchored_hash_not_verified :
  valid_content_hash sample_hash = true /\
  session (blockchain_service configured_runtime) configured_runtime
    [Store sample_hash 7; Verify sample_hash] =
  [ {[ "success" := VBool true;
       "tx_hash" := VStr (lit "0x97fbfedce201f21392e990cbd37a4a948fb41b85");
       "block_number" := VInt 12345678;
       "gas_used" := VInt 21000;
       "message" := VStr (lit "Certificate hash stored on blockchain successfully") ]};
    {[ "verified" := VBool false;
       "tx_hash" := VNone;
       "block_number" := VNone;
       "message" := VStr (lit "Certificate not found on blockchain") ]} ].
Proof. split; [reflexivity|]. vm_compute. reflexivity. Qed.



(** C8: with the service configured, the empty hash is reported as not
    found, with a null transaction hash and block number; the simulated
    check passes exactly the hashes whose first code point is 'a'. *)
Theorem verify_empty_hash self rt :
  truthy (infura_api_key self) = true ->
  verify_certificate_hash self rt [] =
  {[ "verified" := VBool false;
     "tx_hash" := VNone;
     "block_number" := VNone;
     "message" := VStr (lit "Certificate not found on blockchain") ]} /\
  (forall h, _simulate_blockchain_verification self h = true <->
             (0 < length h)%nat /\ head h = Some 97%Z).
Proof.
  intros Hkey. split.
  - apply verify_configured_not_found; [exact Hkey | reflexivity].
  - intros h. rewrite simulate_blockchain_verification_head.
    destruct h as [|c h]; cbn [length head].
    + split; [discriminate | intros [Hlen _]; lia].
    + split; [intros ->; split; [lia | reflexivity] | intros [_ ->]; reflexivity].
Qed.

Lemma verify_empty_hash_witness :
  truthy (infura_api_key (blockchain_service configured_runtime)) = true /\
  verify_certificate_hash (blockchain_service configured_runtime) configured_runtime [] =
  {[ "verified" := VBool false;
     "tx_hash" := VNone;
     "block_number" := VNone;
     "message" := VStr (lit "Certificate not found on blockchain") ]}.
Proof.
  split; [reflexivity|].
  apply (verify_empty_hash (blockchain_service configured_runtime) configured_runtime).
  reflexivity.
Defined.

(** C9, as stated, does not hold: the string made of the lone surrogate
    U+D800 is an input string, and the configured service answers
    success=false for it. *)
Lemma store_every_input_counterexample :
  let self := blockchain_service configured_runtime in
  truthy (infura_api_key self) = true /\
  store_certificate_hash self configured_runtime [0xD800]%Z 1 =
  {[ "success" := VBool false;
     "error" := VStr (lit "Blockchain transaction failed: 'utf-8' codec can't encode character '\ud800' in position 0: surrogates not allowed");
     "tx_hash" := VNone ]}.
Proof. cbv zeta. split; [reflexivity|]. vm_compute. reflexivity. Qed.

(** C9, amended: with the service configured, the anchoring operation
    succeeds, without any validation, for every input string that can be
    encoded (as can SECRET_KEY) and every institution id within the digit
    limit: success=true, a transaction hash "0x" followed by exactly 40
    hexadecimal digits, block number 12345678 and gas 21000. *)
Theorem store_succeeds_when_encodable self rt h i :
  truthy (infura_api_key self) = true ->
  int_str_allowed rt i = true ->
  encodable h = true ->
  encodable (secret_key rt) = true ->
  exists digits,
    length digits = 40 /\ forallb is_hex digits = true /\
    store_certificate_hash self rt h i =
    {[ "success" := VBool true;
       "tx_hash" := VStr (lit "0x" ++ digits);
       "block_number" := VInt 12345678;
       "gas_used" := VInt 21000;
       "message" := VStr (lit "Certificate hash stored on blockchain successfully") ]}.
Proof.
  intros Hkey Hi Hh Hs.
  destruct (generate_mock_tx_hash_returns self rt h i Hi Hh Hs) as (digits & Htx & Hlen & Hhex).
  exists digits. split; [exact Hlen|]. split; [exact Hhex|].
  rewrite store_configured, Htx by exact Hkey. reflexivity.
Qed.

Lemma store_succeeds_when_encodable_witness :
  truthy (infura_api_key (blockchain_service configured_runtime)) = true /\
  int_str_allowed configured_runtime (-5) = true /\
  encodable [] = true /\
  encodable (secret_key configured_runtime) = true /\
  exists digits,
    length digits = 40 /\ forallb is_hex digits = true /\
    store_certificate_hash (blockchain_service configured_runtime)
      configured_runtime [] (-5) =
    {[ "success" := VBool true;
       "tx_hash" := VStr (lit "0x" ++ digits);
       "block_number" := VInt 12345678;
       "gas_used" := VInt 21000;
       "message" := VStr (lit "Certificate hash stored on blockchain successfully") ]}.
Proof.
  split; [reflexivity|]. split; [reflexivity|].
  split; [reflexivity|]. split; [reflexivity|].
  apply store_succeeds_when_encodable; reflexivity.
Defined.

(** C10: both public operations return a dictionary for every input. The
    dictionary of [store_certificate_hash] holds a boolean under "success",
    that of [verify_certificate_hash] one under "verified"; an exception
    raised inside either body is turned into success=false (verified=false)
    with the exception's text under "error", and every answer success=false
    carries an error message. *)
Theorem public_operations_total self rt h i :
  (exists b,
     store_certificate_hash self rt h i !! "success" = Some (VBool b) /\
     (b = false ->
      exists msg, store_certificate_hash self rt h i !! "error" = Some (VStr msg))) /\
  (exists b,
     verify_certificate_hash self rt h !! "verified" = Some (VBool b) /\
     (b = false ->
      (exists msg, verify_certificate_hash self rt h !! "error" = Some (VStr msg)) \/
      verify_certificate_hash self rt h !! "message" =
        Some (VStr (lit "Certificate not found on blockchain")))) /\
  (forall e,
     store_certificate_hash_try self rt h i = Raise e ->
     store_certificate_hash self rt h i =
     {[ "success" := VBool false;
        "error" := VStr (lit "Blockchain transaction failed: " ++ exn_str e);
        "tx_hash" := VNone ]}) /\
  (forall e,
     verify_certificate_hash_try self rt h = Raise e ->
     verify_certificate_hash self rt h =
     {[ "verified" := VBool false;
        "error" := VStr (lit "Blockchain verification failed: " ++ exn_str e);
        "tx_hash" := VNone ]}).
Proof.
  split; [|split; [|split]].
  - destruct (truthy (infura_api_key self)) eqn:Hkey.
    + rewrite store_configured by exact Hkey.
      destruct (_generate_mock_tx_hash self rt h i) as [tx|e].
      * exists true. split; [reflexivity | discriminate].
      * exists false. split; [reflexivity|]. intros _. eexists. reflexivity.
    + rewrite store_unconfigured by exact Hkey.
      exists false. split; [reflexivity|]. intros _. eexists. reflexivity.
  - destruct (truthy (infura_api_key self)) eqn:Hkey.
    + destruct (_simulate_blockchain_verification self h) eqn:Hv.
      * rewrite verify_configured_found by assumption.
        destruct (_generate_mock_tx_hash self rt h 1) as [tx|e].
        -- exists true. split; [reflexivity | discriminate].
        -- exists false. split; [reflexivity|]. intros _. left. eexists. reflexivity.
      * rewrite verify_configured_not_found by assumption.
        exists false. split; [reflexivity|]. intros _. right. reflexivity.
    + rewrite verify_unconfigured by exact Hkey.
      exists false. split; [reflexivity|]. intros _. left. eexists. reflexivity.
  - intros e He. unfold store_certificate_hash. rewrite He. reflexivity.
  - intros e He. unfold verify_certificate_hash. rewrite He. reflexivity.
Qed.

(** The scenario of the specification in general: a well-formed hash that
    does begin with 'a' is anchored and then verified, the verification
    quoting the mock transaction hash of institution 1. *)
Lemma valid_content_hash_encodable h :
  valid_content_hash h = true -> encodable h = true.
Proof.
  unfold valid_content_hash, encodable. intros H.
  apply andb_prop in H as [_ H]. rewrite forallb_forall in H.
  apply forallb_forall. intros c Hc. specialize (H c Hc).
  unfold is_hex_char, is_hex in H. unfold is_surrogate.
  destruct (Z.leb_spec 0xD800 c); [lia | reflexivity].
Qed.

Lemma anchored_a_hash_verified self rt h i :
  truthy (infura_api_key self) = true ->
  int_str_allowed rt i = true ->
  encodable (secret_key rt) = true ->
  valid_content_hash h = true ->
  head h = Some 97%Z ->
  exists tx tx1,
    _generate_mock_tx_hash self rt h i = Ok tx /\
    _generate_mock_tx_hash self rt h 1 = Ok tx1 /\
    session self rt [Store h i; Verify h] =
    [ {[ "success" := VBool true;
         "tx_hash" := VStr tx;
         "block_number" := VInt 12345678;
         "gas_used" := VInt 21000;
         "message" := VStr (lit "Certificate hash stored on blockchain successfully") ]};
      {[ "verified" := VBool true;
         "tx_hash" := VStr tx1;
         "block_number" := VInt 12345678;
         "message" := VStr (lit "Certificate verified on blockchain") ]} ].
Proof.
  intros Hkey Hi Hs Hvalid Hhead.
  pose proof (valid_content_hash_encodable h Hvalid) as Hh.
  destruct (generate_mock_tx_hash_returns self rt h i Hi Hh Hs) as (d & Htx & _).
  destruct (generate_mock_tx_hash_returns self rt h 1 (int_str_allowed_one rt) Hh Hs)
    as (d1 & Htx1 & _).
  exists (lit "0x" ++ d), (lit "0x" ++ d1). split; [exact Htx|]. split; [exact Htx1|].
  cbn [session map perform].
  rewrite store_configured, Htx by exact Hkey.
  rewrite verify_configured_found, Htx1;
    [reflexivity | exact Hkey | apply simulate_blockchain_verification_head, Hhead].
Qed.

(* ===================================================================== *)
(** * Further properties of the module                                    *)
(* ===================================================================== *)

Section Answers.
Variable self : BlockchainService.
Variable rt : Runtime.

(** With an API key, [verify_certificate_hash] in terms of the check and of
    [_generate_mock_tx_hash]. *)
Lemma verify_configured h :
  truthy (infura_api_key self) = true ->
  verify_certificate_hash self rt h =
  if _simulate_blockchain_verification self h
  then match _generate_mock_tx_hash self rt h 1 with
       | Ok tx =>
           {[ "verified" := VBool true;
              "tx_hash" := VStr tx;
              "block_number" := VInt 12345678;
              "message" := VStr (lit "Certificate verified on blockchain") ]}
       | Raise e =>
           {[ "verified" := VBool false;
              "error" := VStr (lit "Blockchain verification failed: " ++ exn_str e);
              "tx_hash" := VNone ]}
       end
  else {[ "verified" := VBool false;
          "tx_hash" := VNone;
          "block_number" := VNone;
          "message" := VStr (lit "Certificate not found on blockchain") ]}.
Proof.
  intros Hkey. destruct (_simulate_blockchain_verification self h) eqn:Hv.
  - apply verify_configured_found; assumption.
  - apply verify_configured_not_found; assumption.
Qed.

(** [_generate_mock_tx_hash] returns or raises, and which of the two is
    decided by the three conditions. *)
Lemma generate_mock_tx_hash_cases h i :
  (int_str_allowed rt i && encodable h && encodable (secret_key rt) = true /\
   exists digits,
     _generate_mock_tx_hash self rt h i = Ok (lit "0x" ++ digits) /\
     length digits = 40 /\ forallb is_hex digits = true) \/
  (int_str_allowed rt i && encodable h && encodable (secret_key rt) = false /\
   exists e, _generate_mock_tx_hash self rt h i = Raise e).
Proof.
  destruct (int_str_allowed rt i && encodable h && encodable (secret_key rt)) eqn:Hc.
  - left. split; [reflexivity|].
    apply andb_prop in Hc as [Hc Hs]. apply andb_prop in Hc as [Hi Hh].
    apply generate_mock_tx_hash_returns; assumption.
  - right. split; [reflexivity|]. apply generate_mock_tx_hash_raises, Hc.
Qed.

End Answers.

(** X2: when INFURA_API_KEY is absent or empty at import, every call of a
    sequence, whatever its arguments and whatever the environment holds at
    the time of the call, is answered with the "not configured" dictionary
    of its operation. *)
Theorem unconfigured_service_answers rt0 rt calls :
  truthy (getenv rt0 "INFURA_API_KEY") = false ->
  session (blockchain_service rt0) rt calls =
  map (fun c => match c with
                | Store _ _ => store_not_configured
                | Verify _ => verify_not_configured
                end) calls.
Proof.
  intros Hkey. unfold session. apply map_ext. intros [h i|h]; cbn [perform].
  - apply store_unconfigured. rewrite blockchain_service_key. exact Hkey.
  - apply verify_unconfigured. rewrite blockchain_service_key. exact Hkey.
Qed.

Lemma unconfigured_service_answers_witness :
  truthy (getenv empty_key_runtime "INFURA_API_KEY") = false /\
  session (blockchain_service empty_key_runtime) configured_runtime
    [Store sample_hash 7; Verify (lit "a")] =
  [store_not_configured; verify_not_configured].
Proof.
  split; [reflexivity|].
  apply (unconfigured_service_answers empty_key_runtime configured_runtime
           [Store sample_hash 7; Verify (lit "a")]).
  reflexivity.
Defined.

(** X3: the answers depend on the service object only through whether it
    has a key, and on the environment only through SECRET_KEY (an unset
    SECRET_KEY counting as "default") and the digit limit: the value of the
    key, the network URL and every other variable have no influence. *)
Theorem session_depends_only_on self1 self2 rt1 rt2 calls :
  truthy (infura_api_key self1) = truthy (infura_api_key self2) ->
  secret_key rt1 = secret_key rt2 ->
  int_max_str_digits rt1 = int_max_str_digits rt2 ->
  session self1 rt1 calls = session self2 rt2 calls.
Proof.
  intros Hkey Hsecret Hlimit.
  assert (Hgen : forall h i, _generate_mock_tx_hash self1 rt1 h i =
                             _generate_mock_tx_hash self2 rt2 h i).
  { intros h i. unfold _generate_mock_tx_hash, int_str, int_str_allowed.
    rewrite Hsecret, Hlimit. reflexivity. }
  unfold session. apply map_ext. intros [h i|h]; cbn [perform].
  - unfold store_certificate_hash, store_certificate_hash_try.
    rewrite Hkey, Hgen. reflexivity.
  - unfold verify_certificate_hash, verify_certificate_hash_try,
      _simulate_blockchain_verification.
    rewrite Hkey, Hgen. reflexivity.
Qed.

Lemma session_depends_only_on_witness :
  let self1 := blockchain_service configured_runtime in
  let self2 := {| infura_api_key := Some (lit "another-key"); network_url := None |} in
  let calls := [Store sample_hash 7; Verify (lit "a"); Verify sample_hash] in
  truthy (infura_api_key self1) = truthy (infura_api_key self2) /\
  secret_key configured_runtime = secret_key other_runtime /\
  int_max_str_digits configured_runtime = int_max_str_digits other_runtime /\
  session self1 configured_runtime calls = session self2 other_runtime calls.
Proof.
  cbv zeta. split; [reflexivity|]. split; [reflexivity|]. split; [reflexivity|].
  apply session_depends_only_on; reflexivity.
Defined.

(** X4: whenever the verification of a hash succeeds, anchoring that hash
    for institution 1 succeeds as well, and the verification quotes exactly
    the transaction hash and block number of that anchoring. *)
Theorem verified_quotes_institution_1 self rt h :
  verify_certificate_hash self rt h !! "verified" = Some (VBool true) ->
  store_certificate_hash self rt h 1 !! "success" = Some (VBool true) /\
  verify_certificate_hash self rt h !! "tx_hash" =
    store_certificate_hash self rt h 1 !! "tx_hash" /\
  verify_certificate_hash self rt h !! "block_number" =
    store_certificate_hash self rt h 1 !! "block_number".
Proof.
  destruct (truthy (infura_api_key self)) eqn:Hkey.
  - rewrite verify_configured, store_configured by exact Hkey.
    destruct (_simulate_blockchain_verification self h); [|discriminate].
    destruct (_generate_mock_tx_hash self rt h 1) as [tx|e]; [|discriminate].
    intros _. repeat split.
  - rewrite verify_unconfigured by exact Hkey. discriminate.
Qed.

Lemma verified_quotes_institution_1_witness :
  let self := blockchain_service configured_runtime in
  verify_certificate_hash self configured_runtime (lit "a") !! "verified" =
    Some (VBool true) /\
  verify_certificate_hash self configured_runtime (lit "a") !! "tx_hash" =
    store_certificate_hash self configured_runtime (lit "a") 1 !! "tx_hash".
Proof.
  cbv zeta.
  assert (verify_certificate_hash (blockchain_service configured_runtime)
            configured_runtime (lit "a") !! "verified" = Some (VBool true)) as Hv.
  { vm_compute. reflexivity. }
  split; [exact Hv|].
  apply (verified_quotes_institution_1 (blockchain_service configured_runtime)
           configured_runtime (lit "a") Hv).
Defined.

(** X5: the verification succeeds exactly when the service has a key, the
    hash begins with 'a', and neither the hash nor SECRET_KEY holds a
    surrogate code point; nothing else about the hash matters. *)
Theorem verify_verified_iff self rt h :
  verify_certificate_hash self rt h !! "verified" = Some (VBool true) <->
  truthy (infura_api_key self) = true /\
  head h = Some 97%Z /\
  encodable h = true /\
  encodable (secret_key rt) = true.
Proof.
  destruct (truthy (infura_api_key self)) eqn:Hkey.
  - rewrite verify_configured by exact Hkey.
    rewrite <- (simulate_blockchain_verification_head self h).
    destruct (_simulate_blockchain_verification self h).
    + destruct (generate_mock_tx_hash_cases self rt h 1)
        as [(Hc & d & -> & _)|(Hc & e & ->)];
        rewrite int_str_allowed_one in Hc; cbn [andb] in Hc.
      * apply andb_prop in Hc as [Hh Hs].
        split; [intros _; repeat split; assumption | reflexivity].
      * split; [discriminate|]. intros (_ & _ & Hh & Hs).
        rewrite Hh, Hs in Hc. discriminate.
    + split; [discriminate|]. intros (_ & Hv & _). discriminate.
  - rewrite verify_unconfigured by exact Hkey.
    split; [discriminate|]. intros (Hk & _). discriminate.
Qed.

(** X6: the anchoring succeeds exactly when the service has a key, the
    institution id is within the interpreter's digit limit, and neither the
    hash nor SECRET_KEY holds a surrogate code point. *)
Theorem store_success_iff self rt h i :
  store_certificate_hash self rt h i !! "success" = Some (VBool true) <->
  truthy (infura_api_key self) = true /\
  int_str_allowed rt i = true /\
  encodable h = true /\
  encodable (secret_key rt) = true.
Proof.
  destruct (truthy (infura_api_key self)) eqn:Hkey.
  - rewrite store_configured by exact Hkey.
    destruct (generate_mock_tx_hash_cases self rt h i)
      as [(Hc & d & -> & _)|(Hc & e & ->)].
    + apply andb_prop in Hc as [Hc Hs]. apply andb_prop in Hc as [Hi Hh].
      split; [intros _; repeat split; assumption | reflexivity].
    + split; [discriminate|]. intros (_ & Hi & Hh & Hs).
      rewrite Hi, Hh, Hs in Hc. discriminate.
  - rewrite store_unconfigured by exact Hkey.
    split; [discriminate|]. intros (Hk & _). discriminate.
Qed.

(** X7: both answers always hold a "tx_hash" entry, and it is null exactly
    when the operation did not succeed; a verification answer holds a
    "block_number" entry exactly when it holds no "error" entry. *)
Theorem tx_hash_null_iff_failure self rt h i :
  (exists v, store_certificate_hash self rt h i !! "tx_hash" = Some v /\
     (v = VNone <->
      store_certificate_hash self rt h i !! "success" = Some (VBool false))) /\
  (exists v, verify_certificate_hash self rt h !! "tx_hash" = Some v /\
     (v = VNone <->
      verify_certificate_hash self rt h !! "verified" = Some (VBool false))) /\
  (is_Some (verify_certificate_hash self rt h !! "block_number") <->
   verify_certificate_hash self rt h !! "error" = None).
Proof.
  destruct (truthy (infura_api_key self)) eqn:Hkey.
  - rewrite !verify_configured, !store_configured by exact Hkey.
    split; [|split].
    + destruct (_generate_mock_tx_hash self rt h i) as [tx|e];
        eexists; (split; [reflexivity|]); split; (discriminate || reflexivity).
    + destruct (_simulate_blockchain_verification self h);
        [destruct (_generate_mock_tx_hash self rt h 1) as [tx|e]|];
        eexists; (split; [reflexivity|]); split; (discriminate || reflexivity).
    + destruct (_simulate_blockchain_verification self h);
        [destruct (_generate_mock_tx_hash self rt h 1) as [tx|e]|].
      * split; [reflexivity | intros _; eexists; reflexivity].
      * split; [intros [v Hv]; discriminate Hv | discriminate].
      * split; [reflexivity | intros _; eexists; reflexivity].
  - rewrite !verify_unconfigured, !store_unconfigured by exact Hkey.
    split; [|split].
    + eexists. split; [reflexivity|]. split; reflexivity.
    + eexists. split; [reflexivity|]. split; reflexivity.
    + split; [intros [v Hv]; discriminate Hv | discriminate].
Qed.

(** X8: every transaction hash either operation returns is a string of 42
    characters: "0x" followed by 40 lower-case hexadecimal digits. *)
Theorem tx_hash_shape self rt h i tx :
  store_certificate_hash self rt h i !! "tx_hash" = Some (VStr tx) \/
  verify_certificate_hash self rt h !! "tx_hash" = Some (VStr tx) ->
  exists digits,
    tx = lit "0x" ++ digits /\ length digits = 40 /\ forallb is_hex digits = true.
Proof.
  destruct (truthy (infura_api_key self)) eqn:Hkey.
  - rewrite verify_configured, store_configured by exact Hkey.
    intros [H|H].
    + destruct (generate_mock_tx_hash_cases self rt h i)
        as [(_ & d & Hd & Hlen & Hhex)|(_ & e & He)].
      * rewrite Hd in H. exists d. split; [|auto].
        assert (Some (VStr (lit "0x" ++ d)) = Some (VStr tx)) as [= <-] by exact H.
        reflexivity.
      * rewrite He in H. discriminate H.
    + destruct (_simulate_blockchain_verification self h); [|discriminate H].
      destruct (generate_mock_tx_hash_cases self rt h 1)
        as [(_ & d & Hd & Hlen & Hhex)|(_ & e & He)].
      * rewrite Hd in H. exists d. split; [|auto].
        assert (Some (VStr (lit "0x" ++ d)) = Some (VStr tx)) as [= <-] by exact H.
        reflexivity.
      * rewrite He in H. discriminate H.
  - rewrite verify_unconfigured, store_unconfigured by exact Hkey.
    intros [H|H]; discriminate H.
Qed.

Lemma tx_hash_shape_witness :
  let self := blockchain_service configured_runtime in
  let tx := lit "0xe55369c7ee53df0fd80ac484f08edf2c7769b450" in
  verify_certificate_hash self configured_runtime (lit "a") !! "tx_hash" =
    Some (VStr tx) /\
  exists digits,
    tx = lit "0x" ++ digits /\ length digits = 40 /\ forallb is_hex digits = true.
Proof.
  cbv zeta.
  assert (verify_certificate_hash (blockchain_service configured_runtime)
            configured_runtime (lit "a") !! "tx_hash" =
          Some (VStr (lit "0xe55369c7ee53df0fd80ac484f08edf2c7769b450"))) as Hv.
  { vm_compute. reflexivity. }
  split; [exact Hv|].
  apply (tx_hash_shape (blockchain_service configured_runtime) configured_runtime
           (lit "a") 0 (lit "0xe55369c7ee53df0fd80ac484f08edf2c7769b450")).
  right. exact Hv.
Defined.

(** X9: the keys of an answer tell its kind. An anchoring answer has the
    keys success, tx_hash, block_number, gas_used, message when it succeeds
    and success, error, tx_hash otherwise. A verification answer has the keys
    verified, tx_hash, block_number, message when the check was carried out
    (verified or not found) and verified, error, tx_hash otherwise. *)
Theorem answer_keys self rt h i :
  let stored := store_certificate_hash self rt h i in
  let checked := verify_certificate_hash self rt h in
  (stored !! "success" = Some (VBool true) /\
   dom stored = ({[ "success"; "tx_hash"; "block_number"; "gas_used"; "message" ]}
                 : gset string) \/
   stored !! "success" = Some (VBool false) /\
   dom stored = ({[ "success"; "error"; "tx_hash" ]} : gset string)) /\
  (checked !! "error" = None /\
   dom checked = ({[ "verified"; "tx_hash"; "block_number"; "message" ]}
                  : gset string) \/
   checked !! "verified" = Some (VBool false) /\
   dom checked = ({[ "verified"; "error"; "tx_hash" ]} : gset string)).
Proof.
  cbv zeta. destruct (truthy (infura_api_key self)) eqn:Hkey.
  - rewrite !verify_configured, !store_configured by exact Hkey. split.
    + destruct (_generate_mock_tx_hash self rt h i) as [tx|e];
        [left | right]; split; reflexivity.
    + destruct (_simulate_blockchain_verification self h);
        [destruct (_generate_mock_tx_hash self rt h 1) as [tx|e]|];
        [left | right | left]; split; reflexivity.
  - rewrite !verify_unconfigured, !store_unconfigured by exact Hkey.
    split; right; split; reflexivity.
Qed.

Section DigestInput.
Local Open Scope Z_scope.

(** The characters of a rendered integer: digits and the minus sign. *)
Lemma lit_string_of_uint_chars d :
  Forall (fun c => 48 <= c <= 57) (lit (NilEmpty.string_of_uint d)).
Proof.
  unfold lit.
  induction d; cbn [NilEmpty.string_of_uint list_ascii_of_string map];
    try (constructor; [cbn; lia | exact IHd]).
  constructor.
Qed.

Lemma decimal_chars n : Forall (fun c => c = 45 \/ 48 <= c <= 57) (decimal n).
Proof.
  assert (Hu : forall d, Forall (fun c => c = 45 \/ 48 <= c <= 57)
                           (lit (NilZero.string_of_uint d))).
  { intros d. unfold NilZero.string_of_uint.
    assert (Forall (fun c => c = 45 \/ 48 <= c <= 57)
              (lit (NilEmpty.string_of_uint d))) as Hd.
    { eapply Forall_impl; [apply lit_string_of_uint_chars|].
      cbn beta. intros c Hc. right. exact Hc. }
    destruct d; try exact Hd.
    constructor; [right; cbn; lia | constructor]. }
  unfold decimal. destruct (Z.to_int n) as [d|d]; cbn [NilZero.string_of_int].
  - apply Hu.
  - change (lit (String "-" (NilZero.string_of_uint d)))
      with (45 :: lit (NilZero.string_of_uint d)).
    constructor; [left; reflexivity | apply Hu].
Qed.

Lemma decimal_no_underscore n : 95 ∉ decimal n.
Proof.
  intros Hin. pose proof (decimal_chars n) as H.
  rewrite Forall_forall in H. specialize (H 95 Hin). lia.
Qed.

Lemma lit_inj s t : lit s = lit t -> s = t.
Proof.
  unfold lit. intros H.
  rewrite <- (string_of_list_ascii_of_string s), <- (string_of_list_ascii_of_string t).
  f_equal. revert H.
  generalize (list_ascii_of_string s) (list_ascii_of_string t).
  induction l as [|a l IH]; intros [|b l'] H; try discriminate; [reflexivity|].
  cbn [map] in H. injection H as Hab Hl. f_equal; [|apply IH, Hl].
  apply N2Z.inj in Hab.
  rewrite <- (ascii_N_embedding a), <- (ascii_N_embedding b), Hab. reflexivity.
Qed.

(** [str(n)] determines [n]. *)
Lemma decimal_inj n m : decimal n = decimal m -> n = m.
Proof.
  intros H. apply lit_inj in H. apply DecimalZ.to_int_inj.
  assert (Hnz : forall z, Z.to_int z <> Decimal.Pos Decimal.Nil /\
                          Z.to_int z <> Decimal.Neg Decimal.Nil).
  { intros [|p|p]; cbn; split; try discriminate;
      intros [= Hp]; apply (DecimalPos.Unsigned.to_uint_nonnil p Hp). }
  assert (Some (Z.to_int n) = Some (Z.to_int m)) as [= ->]; [|reflexivity].
  rewrite <- (NilZero.isi (Z.to_int n)), <- (NilZero.isi (Z.to_int m)), H
    by apply Hnz.
  reflexivity.
Qed.

(** Splitting at the last underscore. *)
Lemma split_at_last_separator (h1 h2 d1 d2 : str) :
  95 ∉ d1 -> 95 ∉ d2 ->
  h1 ++ 95 :: d1 = h2 ++ 95 :: d2 -> h1 = h2 /\ d1 = d2.
Proof.
  intros H1 H2. revert h2.
  induction h1 as [|c h1 IH]; intros [|c' h2] H; cbn [app] in H.
  - injection H as ->. split; reflexivity.
  - injection H as _ ->. exfalso. apply H1.
    apply elem_of_app. right. apply elem_of_cons. left. reflexivity.
  - injection H as _ <-. exfalso. apply H2.
    apply elem_of_app. right. apply elem_of_cons. left. reflexivity.
  - injection H as -> H. destruct (IH h2 H) as [-> ->]. split; reflexivity.
Qed.

End DigestInput.

(** For a given SECRET_KEY, the string that is encoded and digested
    determines the certificate hash and the institution id. *)
Lemma mock_tx_data_inj rt h1 i1 h2 i2 :
  mock_tx_data rt h1 i1 = mock_tx_data rt h2 i2 -> h1 = h2 /\ i1 = i2.
Proof.
  unfold mock_tx_data. intros H.
  change (lit "_") with [95%Z] in H. cbn [app] in H.
  assert (h1 ++ 95%Z :: decimal i1 = h2 ++ 95%Z :: decimal i2) as Hd.
  { apply (app_inv_tail (95%Z :: secret_key rt)).
    rewrite <- !app_assoc. cbn [app]. exact H. }
  apply split_at_last_separator in Hd as [-> Hd];
    [| apply decimal_no_underscore | apply decimal_no_underscore].
  split; [reflexivity | apply decimal_inj, Hd].
Qed.

(** [mock_tx_data] is the string [_generate_mock_tx_hash] digests. *)
Lemma generate_mock_tx_hash_data self rt h i :
  int_str_allowed rt i = true ->
  _generate_mock_tx_hash self rt h i =
  (let* encoded := encode (mock_tx_data rt h i) in
   Ok (lit "0x" ++ take 40 (SHA256.hexdigest encoded))).
Proof.
  intros Hi. unfold _generate_mock_tx_hash, int_str. rewrite Hi. reflexivity.
Qed.

Section Utf8.
Local Open Scope Z_scope.

(** A property of all integers below a bound, checked one by one. *)
Lemma check_below (n : nat) (P : Z -> bool) :
  forallb (fun k => P (Z.of_nat k)) (seq 0 n) = true ->
  forall y, 0 <= y < Z.of_nat n -> P y = true.
Proof.
  intros H y Hy. rewrite forallb_forall in H.
  rewrite <- (Z2Nat.id y) by lia. apply H. apply in_seq. lia.
Qed.

Lemma lor_continuation y : 0 <= y < 64 -> Z.lor 0x80 y = 128 + y.
Proof.
  intros Hy. apply Z.eqb_eq.
  apply (check_below 64 (fun y => Z.lor 0x80 y =? 128 + y)); [reflexivity | exact Hy].
Qed.

Lemma lor_lead2 y : 0 <= y < 32 -> Z.lor 0xC0 y = 192 + y.
Proof.
  intros Hy. apply Z.eqb_eq.
  apply (check_below 32 (fun y => Z.lor 0xC0 y =? 192 + y)); [reflexivity | exact Hy].
Qed.

Lemma lor_lead3 y : 0 <= y < 16 -> Z.lor 0xE0 y = 224 + y.
Proof.
  intros Hy. apply Z.eqb_eq.
  apply (check_below 16 (fun y => Z.lor 0xE0 y =? 224 + y)); [reflexivity | exact Hy].
Qed.

Lemma lor_lead4 y : 0 <= y < 8 -> Z.lor 0xF0 y = 240 + y.
Proof.
  intros Hy. apply Z.eqb_eq.
  apply (check_below 8 (fun y => Z.lor 0xF0 y =? 240 + y)); [reflexivity | exact Hy].
Qed.

Lemma low_six_bits c : Z.land c 0x3F = c mod 64.
Proof. change 0x3F with (Z.ones 6). apply Z.land_ones. lia. Qed.

(** The octets of a code point, in arithmetic. *)
Lemma utf8_char_arith c :
  0 <= c < 0x110000 ->
  (c < 0x80 /\ utf8_char c = [c]) \/
  (0x80 <= c < 0x800 /\ utf8_char c = [192 + c / 64; 128 + c mod 64]) \/
  (0x800 <= c < 0x10000 /\
   utf8_char c = [224 + c / 4096; 128 + (c / 64) mod 64; 128 + c mod 64]) \/
  (0x10000 <= c /\
   utf8_char c = [240 + c / 262144; 128 + (c / 4096) mod 64;
                  128 + (c / 64) mod 64; 128 + c mod 64]).
Proof.
  intros Hc. unfold utf8_char.
  rewrite !low_six_bits, !Z.shiftr_div_pow2 by lia.
  change (2 ^ 6) with 64. change (2 ^ 12) with 4096. change (2 ^ 18) with 262144.
  destruct (Z.ltb_spec c 0x80); [left; split; [lia | reflexivity]|].
  destruct (Z.ltb_spec c 0x800).
  { right; left. split; [lia|].
    rewrite lor_lead2, lor_continuation; [reflexivity| |];
      Z.div_mod_to_equations; lia. }
  destruct (Z.ltb_spec c 0x10000).
  { right; right; left. split; [lia|].
    rewrite lor_lead3, !lor_continuation; [reflexivity| | |];
      Z.div_mod_to_equations; lia. }
  right; right; right. split; [lia|].
  rewrite lor_lead4, !lor_continuation; [reflexivity| | | |];
    Z.div_mod_to_equations; lia.
Qed.

(** The encoding is a prefix code: the octets of one code point, followed
    by anything, determine the code point and what follows. *)
Lemma utf8_char_prefix_free c1 c2 r1 r2 :
  0 <= c1 < 0x110000 -> 0 <= c2 < 0x110000 ->
  utf8_char c1 ++ r1 = utf8_char c2 ++ r2 -> c1 = c2 /\ r1 = r2.
Proof.
  intros H1 H2.
  destruct (utf8_char_arith c1 H1) as [[B1 ->]|[[B1 ->]|[[B1 ->]|[B1 ->]]]];
  destruct (utf8_char_arith c2 H2) as [[B2 ->]|[[B2 ->]|[[B2 ->]|[B2 ->]]]];
  cbn [app]; intros H; injection H; clear H; intros;
  first [ split; [Z.div_mod_to_equations; lia | congruence]
        | exfalso; Z.div_mod_to_equations; lia ].
Qed.
End Utf8.

Section DigestOctets.
Local Open Scope Z_scope.

Lemma well_formed_cons c s :
  well_formed (c :: s) = true -> 0 <= c < 0x110000 /\ well_formed s = true.
Proof.
  unfold well_formed, is_code_point. cbn [forallb]. intros H.
  apply andb_prop in H as [Hc Hs]. split; [lia | exact Hs].
Qed.

Lemma well_formed_app s t :
  well_formed (s ++ t) = well_formed s && well_formed t.
Proof. apply forallb_app. Qed.

Lemma well_formed_lit s : well_formed (lit s) = true.
Proof.
  unfold well_formed. apply forallb_forall. intros c Hc.
  pose proof (lit_char_range s) as Hr.
  rewrite List.Forall_forall in Hr. specialize (Hr c Hc).
  unfold is_code_point. lia.
Qed.

Lemma utf8_char_nonempty c : utf8_char c <> [].
Proof.
  unfold utf8_char.
  destruct (c <? 0x80); [discriminate|].
  destruct (c <? 0x800); [discriminate|].
  destruct (c <? 0x10000); discriminate.
Qed.

(** Two well-formed strings with the same octets are the same string. *)
Lemma flat_map_utf8_char_inj s1 s2 :
  well_formed s1 = true -> well_formed s2 = true ->
  flat_map utf8_char s1 = flat_map utf8_char s2 -> s1 = s2.
Proof.
  revert s2. induction s1 as [|c1 s1 IH]; intros [|c2 s2] H1 H2 H;
    cbn [flat_map] in H.
  - reflexivity.
  - symmetry in H. apply app_eq_nil in H as [H _].
    destruct (utf8_char_nonempty c2 H).
  - apply app_eq_nil in H as [H _]. destruct (utf8_char_nonempty c1 H).
  - apply well_formed_cons in H1 as [Hc1 H1].
    apply well_formed_cons in H2 as [Hc2 H2].
    apply utf8_char_prefix_free in H as [-> H]; [|assumption|assumption].
    f_equal. apply IH; assumption.
Qed.

(** What [encode] returns is the octets of the code points, and it returns
    only for a string without surrogates. *)
Lemma encode_returns s octets :
  encode s = Ok octets -> octets = flat_map utf8_char s.
Proof.
  intros H. destruct (encodable s) eqn:Hs.
  - rewrite (encode_encodable s Hs) in H. congruence.
  - destruct (encode_surrogate s Hs) as [e He]. congruence.
Qed.

Lemma encode_inj s1 s2 octets :
  well_formed s1 = true -> well_formed s2 = true ->
  encode s1 = Ok octets -> encode s2 = Ok octets -> s1 = s2.
Proof.
  intros H1 H2 E1 E2. apply flat_map_utf8_char_inj; [assumption|assumption|].
  rewrite <- (encode_returns s1 octets E1). apply encode_returns, E2.
Qed.

Lemma well_formed_mock_tx_data rt h i :
  well_formed h = true -> well_formed (secret_key rt) = true ->
  well_formed (mock_tx_data rt h i) = true.
Proof.
  intros Hh Hs. unfold mock_tx_data, decimal.
  rewrite !well_formed_app, !well_formed_lit, Hh, Hs. reflexivity.
Qed.

End DigestOctets.

(** X10: for a given SECRET_KEY, the octets that [_generate_mock_tx_hash]
    hands to SHA-256 determine the certificate hash and the institution id:
    two different (hash, id) pairs are never digested from the same octets,
    so two of them can share a transaction hash only through the digest. *)
Theorem digest_input_determines_arguments rt h1 i1 h2 i2 octets :
  well_formed h1 = true ->
  well_formed h2 = true ->
  well_formed (secret_key rt) = true ->
  encode (mock_tx_data rt h1 i1) = Ok octets ->
  encode (mock_tx_data rt h2 i2) = Ok octets ->
  h1 = h2 /\ i1 = i2.
Proof.
  intros H1 H2 Hs E1 E2. apply (mock_tx_data_inj rt).
  apply (encode_inj _ _ octets); auto using well_formed_mock_tx_data.
Qed.

Lemma digest_input_determines_arguments_witness :
  well_formed (lit "a_1") = true /\
  well_formed (secret_key configured_runtime) = true /\
  encode (mock_tx_data configured_runtime (lit "a_1") 2) =
    Ok (lit "a_1_2_default") /\
  lit "a_1" = lit "a_1" /\ 2%Z = 2%Z.
Proof.
  split; [reflexivity|]. split; [reflexivity|]. split; [reflexivity|].
  apply (digest_input_determines_arguments configured_runtime
           (lit "a_1") 2 (lit "a_1") 2 (lit "a_1_2_default")); reflexivity.
Defined.

(** X11: an error entry tells a missing configuration from a failure at run
    time. In an anchoring answer it is the "not configured" text exactly when
    the service has no key, and otherwise "Blockchain transaction failed: "
    followed by the text of the exception; likewise, with its own two texts,
    in a verification answer. *)
Theorem error_entry_kinds self rt h i msg :
  (store_certificate_hash self rt h i !! "error" = Some (VStr msg) ->
   truthy (infura_api_key self) = false /\
   msg = lit "Blockchain service not configured. INFURA_API_KEY is missing." \/
   truthy (infura_api_key self) = true /\
   exists e, _generate_mock_tx_hash self rt h i = Raise e /\
             msg = lit "Blockchain transaction failed: " ++ exn_str e) /\
  (verify_certificate_hash self rt h !! "error" = Some (VStr msg) ->
   truthy (infura_api_key self) = false /\
   msg = lit "Blockchain service not configured" \/
   truthy (infura_api_key self) = true /\
   exists e, _generate_mock_tx_hash self rt h 1 = Raise e /\
             msg = lit "Blockchain verification failed: " ++ exn_str e).
Proof.
  destruct (truthy (infura_api_key self)) eqn:Hkey.
  - rewrite verify_configured, store_configured by exact Hkey. split.
    + destruct (_generate_mock_tx_hash self rt h i) as [tx|e]; [discriminate|].
      intros H. right. split; [reflexivity|]. exists e. split; [reflexivity|].
      assert (Some (VStr (lit "Blockchain transaction failed: " ++ exn_str e)) =
              Some (VStr msg)) as [= <-] by exact H.
      reflexivity.
    + destruct (_simulate_blockchain_verification self h); [|discriminate].
      destruct (_generate_mock_tx_hash self rt h 1) as [tx|e]; [discriminate|].
      intros H. right. split; [reflexivity|]. exists e. split; [reflexivity|].
      assert (Some (VStr (lit "Blockchain verification failed: " ++ exn_str e)) =
              Some (VStr msg)) as [= <-] by exact H.
      reflexivity.
  - rewrite verify_unconfigured, store_unconfigured by exact Hkey. split.
    + intros H. left. split; [reflexivity|].
      assert (Some (VStr (lit "Blockchain service not configured. INFURA_API_KEY is missing.")) =
              Some (VStr msg)) as [= <-] by exact H.
      reflexivity.
    + intros H. left. split; [reflexivity|].
      assert (Some (VStr (lit "Blockchain service not configured")) =
              Some (VStr msg)) as [= <-] by exact H.
      reflexivity.
Qed.

Lemma error_entry_kinds_witness :
  let self := blockchain_service configured_runtime in
  let msg := lit "Blockchain transaction failed: 'utf-8' codec can't encode character '\ud800' in position 0: surrogates not allowed" in
  store_certificate_hash self configured_runtime [0xD800]%Z 1 !! "error" =
    Some (VStr msg) /\
  (truthy (infura_api_key self) = false /\
   msg = lit "Blockchain service not configured. INFURA_API_KEY is missing." \/
   truthy (infura_api_key self) = true /\
   exists e, _generate_mock_tx_hash self configured_runtime [0xD800]%Z 1 = Raise e /\
             msg = lit "Blockchain transaction failed: " ++ exn_str e).
Proof.
  cbv zeta.
  assert (store_certificate_hash (blockchain_service configured_runtime)
            configured_runtime [0xD800]%Z 1 !! "error" =
          Some (VStr (lit "Blockchain transaction failed: 'utf-8' codec can't encode character '\ud800' in position 0: surrogates not allowed")))
    as Hm.
  { vm_compute. reflexivity. }
  split; [exact Hm|].
  apply (error_entry_kinds (blockchain_service configured_runtime)
           configured_runtime [0xD800]%Z 1 _).
  exact Hm.
Defined.


